(** * marvin/status.py: the review-status engine of the marvin-mk2 bot

    A shallow embedding of [src/marvin/status.py].  Webhook handlers and
    slash-command handlers are asynchronous Python functions whose only
    observable behaviour is the sequence of remote calls they make
    ([gh_util.set_issue_status], [gh.post], [asyncio.sleep],
    [runner.run_soon]) and the exception, if any, that ends them.  They are
    embedded as computations in a small trace-and-exception monad. *)

From Stdlib Require Import ZArith String Ascii List Bool Lia.
From stdpp Require Import base option gmap strings list.

Open Scope string_scope.

(** ** Payload data

    The JSON payloads are read by the handlers through a fixed set of keys;
    each nested object is a record of the keys that [status.py] reads.  The
    top-level keys of [event.data] whose presence differs between event types
    are optional. *)

(** [x["user"]]: only ["id"] is read, and compared with [==]. *)
Record User := { user_id : Z }.

(** An element of [issue["labels"]]: only ["name"] is read. *)
Record Label := { label_name : string }.

(** [event.data["issue"]] or [event.data["pull_request"]]. *)
Record Issue := {
  issue_id : Z;
  issue_user : User;
  issue_labels : list Label;
  issue_comments_url : string
}.

(** [event.data["comment"]]. *)
Record Comment := {
  comment_body : string;
  comment_user : User
}.

(** [event.data["review"]]; its body may be [None]. *)
Record Review := {
  review_body : option string;
  review_user : User;
  review_state : string
}.

(** [event.data["installation"]]. *)
Record Installation := { installation_id : Z }.

Record EventData := {
  data_action : string;
  data_pull_request : option Issue;
  data_issue : option Issue;
  data_comment : option Comment;
  data_review : option Review;
  data_installation : option Installation
}.

(** [sansio.Event]: the event type and the decoded payload. *)
Record Event := {
  event_type : string;
  data : EventData
}.

(** ** Effects and exceptions *)

(** A handle stored in [triage_runner.runners]. *)
Definition Runner := nat.

Inductive Effect :=
| SetIssueStatus (issue : Issue) (status : string) (token : string)
    (* await gh_util.set_issue_status(issue, status, gh, token) *)
| Post (url : string) (body : string) (token : string)
    (* await gh.post(url, data={"body": body}, oauth_token=token) *)
| Sleep (seconds : Z)
    (* await asyncio.sleep(seconds) *)
| RunSoon (runner : Runner) (token : string).
    (* runner.run_soon(gh, token) *)

Inductive Exn :=
| KeyError (key : string)
| KeyErrorId (key : Z).

(** A computation: the calls made so far, and how it ended. *)
Definition M (A : Type) : Type := (list Effect * (Exn + A))%type.

Definition trace {A} (m : M A) : list Effect := fst m.
Definition outcome {A} (m : M A) : Exn + A := snd m.

Definition ret {A} (a : A) : M A := ([], inr a).

Definition bind {A B} (m : M A) (f : A -> M B) : M B :=
  match m with
  | (t, inl e) => (t, inl e)
  | (t, inr a) => let '(t', r) := f a in ((t ++ t')%list, r)
  end.

Definition raise {A} (e : Exn) : M A := ([], inl e).

Definition emit (e : Effect) : M unit := ([e], inr tt).

#[global] Instance M_ret : MRet M := @ret.
#[global] Instance M_bind : MBind M := fun A B f m => bind m f.

(** [d[key]] on a dictionary whose key may be absent. *)
Definition getitem {A} (key : string) (v : option A) : M A :=
  match v with
  | Some a => ret a
  | None => raise (KeyError key)
  end.

(** The asynchronous calls of the handlers. *)
Definition set_issue_status (issue : Issue) (status token : string) : M unit :=
  emit (SetIssueStatus issue status token).

Definition post (url body token : string) : M unit :=
  emit (Post url body token).

Definition sleep (seconds : Z) : M unit := emit (Sleep seconds).

Definition run_soon (runner : Runner) (token : string) : M unit :=
  emit (RunSoon runner token).

(** ** Strings *)

Definition nl : string := String (ascii_of_nat 10) EmptyString.

(** Python's [str.strip()] on an ASCII string: the characters it removes are
    tab, line feed, vertical tab, form feed, carriage return, the four
    separators 28 to 31 and the space. *)
Definition is_space (c : ascii) : bool :=
  let n := nat_of_ascii c in
  (((9 <=? n) && (n <=? 13)) || ((28 <=? n) && (n <=? 32)))%nat.

Fixpoint lstrip (s : string) : string :=
  match s with
  | EmptyString => EmptyString
  | String c rest => if is_space c then lstrip rest else s
  end.

Fixpoint rstrip (s : string) : string :=
  match s with
  | EmptyString => EmptyString
  | String c rest =>
      match rstrip rest with
      | EmptyString => if is_space c then EmptyString else String c EmptyString
      | r => String c r
      end
  end.

Definition strip (s : string) : string := rstrip (lstrip s).

(** [needle in hay]. *)
Fixpoint contains (needle hay : string) : bool :=
  String.prefix needle hay ||
  match hay with
  | EmptyString => false
  | String _ rest => contains needle rest
  end.

Definition NO_SELF_REVIEW_TEXT : string :=
  strip
    (nl +:+
     "The PR author cannot set the status to `needs_merger`. Please wait for an external review." +:+
     nl +:+ nl +:+
     "If you are not the PR author and you are reading this, please review the [usage](https://github.com/timokau/marvin-mk2/blob/deployed/USAGE.md) of this bot. You may be able to help. Please make an honest attempt to resolve all outstanding issues before setting to `needs_merger`." +:+
     nl).

(** [{label["name"] for label in issue["labels"]}]. *)
Definition label_names (issue : Issue) : gset string :=
  list_to_set (label_name <$> issue_labels issue).

(** [issue["user"]["id"] == comment["user"]["id"]]. *)
Definition same_user (a b : User) : bool := Z.eqb (user_id a) (user_id b).

(** ** The handlers of [status.py] *)

(** The keyword arguments every command handler is called with. *)
Record CommandContext := {
  ctx_event : Event;
  ctx_token : string;
  ctx_issue : Issue;
  ctx_pull_request_url : string;
  ctx_comment : Comment
}.

Section Handlers.

(** [command_router.find_commands]: the scanner of [marvin.command_router],
    whose result is only measured with [len] here. *)
Variable find_commands : string -> list string.

(** [triage_runner.runners]: the registry of [marvin.triage_runner], from
    installation id to runner. *)
Variable runners : gmap Z Runner.

(** [triage_runner.runners[event.data["installation"]["id"]]]. *)
Definition installation_runner (event : Event) : M Runner :=
  installation ← getitem "installation" (data_installation (data event));
  match runners !! installation_id installation with
  | Some runner => mret runner
  | None => raise (KeyErrorId (installation_id installation))
  end.

Definition pull_request_ready_for_review (event : Event) (token : string) : M unit :=
  issue ← getitem "pull_request" (data_pull_request (data event));
  let labels := label_names issue in
  if bool_decide ("needs_merger" ∉ labels)
     && bool_decide ("awaiting_reviewer" ∉ labels)
     && bool_decide ("awaiting_merger" ∉ labels)
  then set_issue_status issue "needs_reviewer" token
  else mret tt.

Definition pull_request_synchronize (event : Event) (token : string) : M unit :=
  issue ← getitem "pull_request" (data_pull_request (data event));
  let labels := label_names issue in
  if bool_decide ("needs_merger" ∈ labels)
     || bool_decide ("awaiting_changes" ∈ labels)
     || bool_decide ("awaiting_merger" ∈ labels)
  then set_issue_status issue "awaiting_reviewer" token
  else mret tt.

Definition pull_request_assigned (event : Event) (token : string) : M unit :=
  issue ← getitem "pull_request" (data_pull_request (data event));
  let labels := label_names issue in
  if bool_decide ("needs_reviewer" ∈ labels)
  then set_issue_status issue "awaiting_reviewer" token
  else mret tt.

Definition issue_comment_event (event : Event) (token : string) : M unit :=
  comment ← getitem "comment" (data_comment (data event));
  if (0 <? length (find_commands (comment_body comment)))%nat then mret tt
  else
    issue ← match data_issue (data event) with
            | Some issue => mret issue
            | None => getitem "pull_request" (data_pull_request (data event))
            end;
    let by_pr_author := same_user (issue_user issue) (comment_user comment) in
    let labels := label_names issue in
    if by_pr_author && bool_decide ("awaiting_changes" ∈ labels)
    then set_issue_status issue "awaiting_reviewer" token
    else if negb by_pr_author && bool_decide ("needs_reviewer" ∈ labels)
    then set_issue_status issue "awaiting_reviewer" token
    else mret tt.

Definition pull_request_review_submitted (event : Event) (token : string) : M unit :=
  review ← getitem "review" (data_review (data event));
  if match review_body review with
     | Some body => (0 <? length (find_commands body))%nat
     | None => false
     end
  then mret tt
  else
    issue ← getitem "pull_request" (data_pull_request (data event));
    let labels := label_names issue in
    let comment := review in
    let by_pr_author := same_user (issue_user issue) (review_user comment) in
    if by_pr_author then mret tt
    else if String.eqb (review_state review) "changes_requested"
    then set_issue_status issue "awaiting_changes" token
    else if bool_decide ("needs_reviewer" ∈ labels)
    then set_issue_status issue "awaiting_reviewer" token
    else mret tt.

Definition needs_reviewer_command (ctx : CommandContext) : M unit :=
  set_issue_status (ctx_issue ctx) "needs_reviewer" (ctx_token ctx);;
  sleep 2;;
  runner ← installation_runner (ctx_event ctx);
  run_soon runner (ctx_token ctx).

Definition awaiting_changes_command (ctx : CommandContext) : M unit :=
  set_issue_status (ctx_issue ctx) "awaiting_changes" (ctx_token ctx).

Definition awaiting_reviewer_command (ctx : CommandContext) : M unit :=
  set_issue_status (ctx_issue ctx) "awaiting_reviewer" (ctx_token ctx).

Definition needs_merger_command (ctx : CommandContext) : M unit :=
  let issue := ctx_issue ctx in
  let by_pr_author := same_user (issue_user issue) (comment_user (ctx_comment ctx)) in
  if by_pr_author
  then post (issue_comments_url issue) NO_SELF_REVIEW_TEXT (ctx_token ctx)
  else
    set_issue_status issue "needs_merger" (ctx_token ctx);;
    runner ← installation_runner (ctx_event ctx);
    run_soon runner (ctx_token ctx).

Definition awaiting_merger_command (ctx : CommandContext) : M unit :=
  let issue := ctx_issue ctx in
  let by_pr_author := same_user (issue_user issue) (comment_user (ctx_comment ctx)) in
  if by_pr_author
  then post (issue_comments_url issue) NO_SELF_REVIEW_TEXT (ctx_token ctx)
  else set_issue_status issue "awaiting_merger" (ctx_token ctx).

(** [router]: the handlers registered with [@router.register(event_type,
    action=...)], in the order of the file. *)
Definition router : list (string * string * (Event -> string -> M unit)) :=
  [ ("pull_request", "ready_for_review", pull_request_ready_for_review);
    ("pull_request", "synchronize", pull_request_synchronize);
    ("pull_request", "review_requested", pull_request_assigned);
    ("pull_request", "assigned", pull_request_assigned);
    ("issue_comment", "created", issue_comment_event);
    ("pull_request_review_comment", "created", issue_comment_event);
    ("pull_request_review", "submitted", pull_request_review_submitted) ].

(** [command_router]: the handlers registered with
    [@command_router.register_command(trigger)], in the order of
    registration. *)
Definition command_router : list (string * (CommandContext -> M unit)) :=
  [ ("/status needs_reviewer", needs_reviewer_command);
    ("/status awaiting_changes", awaiting_changes_command);
    ("/status awaiting_reviewer", awaiting_reviewer_command);
    ("/status needs_merger", needs_merger_command);
    ("/status awaiting_merger", awaiting_merger_command) ].

(** Running handlers one after the other; an exception ends the run. *)
Fixpoint run_all {A} (hs : list (A -> M unit)) (a : A) : M unit :=
  match hs with
  | [] => mret tt
  | h :: hs' => h a;; run_all hs' a
  end.

(** The callbacks the router holds for an event: those registered for its
    type whose [action] equals the payload's. *)
Definition fetch (event : Event) : list (Event -> string -> M unit) :=
  snd <$> List.filter (fun r => String.eqb (fst (fst r)) (event_type event)
                           && String.eqb (snd (fst r)) (data_action (data event)))
                 router.

(** [router.dispatch(event, gh, token)]. *)
Definition dispatch (event : Event) (token : string) : M unit :=
  run_all ((fun h ev => h ev token) <$> fetch event) event.

(** The handler bound to a trigger, if any. *)
Definition command_handler (trigger : string) : option (CommandContext -> M unit) :=
  snd <$> List.find (fun c => String.eqb (fst c) trigger) command_router.

End Handlers.

(** ** The collaborators outside [status.py] *)

(** The five status labels. *)
Definition ISSUE_STATUS_LABELS : gset string :=
  {[ "needs_reviewer"; "awaiting_reviewer"; "awaiting_changes";
     "needs_merger"; "awaiting_merger" ]}.

(** Modelled from the spec: the scanner [find_commands] of
    [marvin/command_router.py], which is not part of the sources.  It scans
    the text for every non-overlapping occurrence of a registered trigger,
    matching literal substrings, and lists the triggers found in the order in
    which they appear. *)
Fixpoint scan_commands (triggers : list string) (skip : nat) (text : string) : list string :=
  match text with
  | EmptyString => []
  | String _ rest =>
      match skip with
      | S k => scan_commands triggers k rest
      | O =>
          match List.find (fun t => String.prefix t text) triggers with
          | Some t => t :: scan_commands triggers (String.length t - 1) rest
          | None => scan_commands triggers 0 rest
          end
      end
  end.

Definition COMMAND_TRIGGERS : list string :=
  [ "/status needs_reviewer"; "/status awaiting_changes";
    "/status awaiting_reviewer"; "/status needs_merger";
    "/status awaiting_merger" ].

Definition find_commands_model (text : string) : list string :=
  scan_commands COMMAND_TRIGGERS 0 text.

(** Modelled from the spec: the effect of [gh_util.set_issue_status] on the
    labels of the remote issue; [marvin/gh_util.py] is not part of the
    sources.  Setting a status removes any other status label and attaches
    the new one, in one step. *)
Definition set_exclusive_status_label (status : string) (labels : gset string) : gset string :=
  (labels ∖ ISSUE_STATUS_LABELS) ∪ {[ status ]}.

(** The remote tracker: the label set of every issue, by issue id. *)
Definition apply_effect (e : Effect) (store : gmap Z (gset string)) : gmap Z (gset string) :=
  match e with
  | SetIssueStatus issue status _ =>
      <[ issue_id issue :=
           set_exclusive_status_label status (default ∅ (store !! issue_id issue)) ]> store
  | Post _ _ _ | Sleep _ | RunSoon _ _ => store
  end.

(** The stores the tracker goes through while a trace of calls is made,
    after each call in turn. *)
Fixpoint trace_states (t : list Effect) (store : gmap Z (gset string))
  : list (gmap Z (gset string)) :=
  match t with
  | [] => []
  | e :: t' => apply_effect e store :: trace_states t' (apply_effect e store)
  end.

Definition run_trace (t : list Effect) (store : gmap Z (gset string)) : gmap Z (gset string) :=
  fold_left (fun s e => apply_effect e s) t store.

(** One unit of work of the bot: a webhook delivery given to the router, or
    a command found in a body and run with its context. *)
Inductive Invocation :=
| Delivery (event : Event) (token : string)
| Command (trigger : string) (ctx : CommandContext).

Section Processing.

Variable find_commands : string -> list string.
Variable runners : gmap Z Runner.

Definition execute (inv : Invocation) : M unit :=
  match inv with
  | Delivery event token => dispatch find_commands event token
  | Command trigger ctx =>
      match command_handler runners trigger with
      | Some handler => handler ctx
      | None => mret tt
      end
  end.

(** Every store the tracker goes through while a sequence of invocations
    is processed, the initial one first. *)
Fixpoint history_from (invs : list Invocation) (store : gmap Z (gset string))
  : list (gmap Z (gset string)) :=
  match invs with
  | [] => []
  | inv :: invs' =>
      let t := trace (execute inv) in
      (trace_states t store ++ history_from invs' (run_trace t store))%list
  end.

Definition history (invs : list Invocation) (store : gmap Z (gset string))
  : list (gmap Z (gset string)) :=
  store :: history_from invs store.

End Processing.

(** An issue carries at most one status label. *)
Definition at_most_one_status (labels : gset string) : Prop :=
  forall a b : string,
    a ∈ labels -> b ∈ labels ->
    a ∈ ISSUE_STATUS_LABELS -> b ∈ ISSUE_STATUS_LABELS -> a = b.

Definition store_ok (store : gmap Z (gset string)) : Prop :=
  forall (i : Z) (labels : gset string), store !! i = Some labels -> at_most_one_status labels.

(** The events the handlers are registered for. *)
Definition comment_created (event : Event) : Prop :=
  (event_type event = "issue_comment" \/ event_type event = "pull_request_review_comment")
  /\ data_action (data event) = "created".

Definition review_submitted (event : Event) : Prop :=
  event_type event = "pull_request_review" /\ data_action (data event) = "submitted".

(** [event.data["issue"] if "issue" in event.data else event.data["pull_request"]],
    when the key read is present. *)
Definition event_issue (event : Event) : option Issue :=
  match data_issue (data event) with
  | Some issue => Some issue
  | None => data_pull_request (data event)
  end.

(** No command is found in a review body: the body is [None], or the scanner
    finds nothing in it. *)
Definition no_command (find_commands : string -> list string) (body : option string) : Prop :=
  match body with
  | Some text => find_commands text = []
  | None => True
  end.

(** A call that sets a status occurs in a trace. *)
Definition sets_status (t : list Effect) : Prop :=
  exists issue status token, In (SetIssueStatus issue status token) t.

Definition notifies_runner (t : list Effect) : Prop :=
  exists runner token, In (RunSoon runner token) t.

Definition is_sleep (e : Effect) : bool :=
  match e with Sleep _ => true | _ => false end.

Definition is_set_status (e : Effect) : bool :=
  match e with SetIssueStatus _ _ _ => true | _ => false end.

(** The text names both elevated statuses. *)
Definition names_both_statuses (text : string) : Prop :=
  contains "needs_merger" text = true /\ contains "awaiting_merger" text = true.

(** ** Sample payloads *)

Definition sample_author : User := {| user_id := 11 |}.
Definition sample_other : User := {| user_id := 42 |}.

Definition sample_issue (labels : list string) : Issue :=
  {| issue_id := 7;
     issue_user := sample_author;
     issue_labels := (fun n => {| label_name := n |}) <$> labels;
     issue_comments_url := "https://api.github.com/repos/o/r/issues/7/comments" |}.

Definition sample_comment (body : string) (user : User) : Comment :=
  {| comment_body := body; comment_user := user |}.

Definition sample_review (body : option string) (user : User) (state : string) : Review :=
  {| review_body := body; review_user := user; review_state := state |}.

Definition sample_event (type action : string) (pr issue : option Issue)
    (comment : option Comment) (review : option Review) : Event :=
  {| event_type := type;
     data := {| data_action := action;
                data_pull_request := pr;
                data_issue := issue;
                data_comment := comment;
                data_review := review;
                data_installation := Some {| installation_id := 5 |} |} |}.

Definition sample_ctx (labels : list string) (body : string) (user : User) : CommandContext :=
  {| ctx_event := sample_event "issue_comment" "created" None (Some (sample_issue labels))
                    (Some (sample_comment body user)) None;
     ctx_token := "token";
     ctx_issue := sample_issue labels;
     ctx_pull_request_url := "https://api.github.com/repos/o/r/pulls/7";
     ctx_comment := sample_comment body user |}.

Definition sample_runners : gmap Z Runner := {[ 5%Z := 0%nat ]}.

(** ** The monad and the router *)

Ltac run_m :=
  unfold getitem, set_issue_status, post, sleep, run_soon in *;
  unfold mbind, M_bind, mret, M_ret, bind, ret, raise, emit in *;
  cbn [fst snd app] in *.

(** Case analysis on the innermost scrutinee first. *)
Ltac split_cases :=
  repeat match goal with
         | |- context [match ?x with _ => _ end] =>
             lazymatch x with
             | context [match _ with _ => _ end] => fail
             | _ => destruct x; cbn [fst snd app trace]
             end
         end.

(** The same, keeping the equation of each case. *)
Ltac split_cases_eqn :=
  repeat match goal with
         | |- context [match ?x with _ => _ end] =>
             lazymatch x with
             | context [match _ with _ => _ end] => fail
             | _ => destruct x eqn:?; cbn [fst snd app trace]
             end
         end.

Lemma bind_ret_r (m : M unit) : bind m (fun _ => ret tt) = m.
Proof.
  destruct m as [t [e | []]]; unfold bind, ret; cbn; [reflexivity |].
  now rewrite app_nil_r.
Qed.

Lemma dispatch_single find_commands event token h :
  fetch find_commands event = [h] ->
  dispatch find_commands event token = h event token.
Proof.
  intros Hf. unfold dispatch. rewrite Hf. cbn.
  apply (bind_ret_r (h event token)).
Qed.

Lemma dispatch_ready_for_review find_commands event token :
  event_type event = "pull_request" ->
  data_action (data event) = "ready_for_review" ->
  dispatch find_commands event token = pull_request_ready_for_review event token.
Proof.
  intros Ht Ha. apply dispatch_single. unfold fetch. now rewrite Ht, Ha.
Qed.

Lemma dispatch_comment_created find_commands event token :
  comment_created event ->
  dispatch find_commands event token = issue_comment_event find_commands event token.
Proof.
  intros [[Ht | Ht] Ha]; apply dispatch_single; unfold fetch; now rewrite Ht, Ha.
Qed.

Lemma dispatch_review_submitted find_commands event token :
  review_submitted event ->
  dispatch find_commands event token = pull_request_review_submitted find_commands event token.
Proof.
  intros [Ht Ha]. apply dispatch_single. unfold fetch. now rewrite Ht, Ha.
Qed.

Lemma same_user_true a b : same_user a b = true <-> user_id a = user_id b.
Proof. unfold same_user. apply Z.eqb_eq. Qed.

Lemma same_user_false a b : same_user a b = false <-> user_id a <> user_id b.
Proof. unfold same_user. apply Z.eqb_neq. Qed.

Lemma length_pos_false {A} (l : list A) : l = [] -> (0 <? length l)%nat = false.
Proof. now intros ->. Qed.

Lemma length_pos_true {A} (l : list A) : l <> [] -> (0 <? length l)%nat = true.
Proof. destruct l; [congruence | reflexivity]. Qed.

(** ** The self-review guard *)

Lemma needs_merger_by_author runners ctx :
  user_id (comment_user (ctx_comment ctx)) = user_id (issue_user (ctx_issue ctx)) ->
  needs_merger_command runners ctx =
    ([Post (issue_comments_url (ctx_issue ctx)) NO_SELF_REVIEW_TEXT (ctx_token ctx)], inr tt).
Proof.
  intros Hid. unfold needs_merger_command.
  now rewrite (proj2 (same_user_true _ _) (eq_sym Hid)).
Qed.

Lemma awaiting_merger_by_author ctx :
  user_id (comment_user (ctx_comment ctx)) = user_id (issue_user (ctx_issue ctx)) ->
  awaiting_merger_command ctx =
    ([Post (issue_comments_url (ctx_issue ctx)) NO_SELF_REVIEW_TEXT (ctx_token ctx)], inr tt).
Proof.
  intros Hid. unfold awaiting_merger_command.
  now rewrite (proj2 (same_user_true _ _) (eq_sym Hid)).
Qed.

Lemma needs_merger_by_other runners ctx :
  user_id (comment_user (ctx_comment ctx)) <> user_id (issue_user (ctx_issue ctx)) ->
  exists rest r,
    needs_merger_command runners ctx =
      (SetIssueStatus (ctx_issue ctx) "needs_merger" (ctx_token ctx) :: rest, r)
    /\ Forall (fun e => exists runner, e = RunSoon runner (ctx_token ctx)) rest.
Proof.
  intros Hid. unfold needs_merger_command, installation_runner.
  rewrite (proj2 (same_user_false _ _) (fun H => Hid (eq_sym H))).
  destruct (data_installation (data (ctx_event ctx))) as [inst |]; run_m.
  - destruct (runners !! installation_id inst) as [runner |]; run_m.
    + eexists _, _. split; [reflexivity |]. repeat constructor. now exists runner.
    + eexists _, _. split; [reflexivity |]. constructor.
  - eexists _, _. split; [reflexivity |]. constructor.
Qed.

Lemma awaiting_merger_by_other ctx :
  user_id (comment_user (ctx_comment ctx)) <> user_id (issue_user (ctx_issue ctx)) ->
  awaiting_merger_command ctx =
    ([SetIssueStatus (ctx_issue ctx) "awaiting_merger" (ctx_token ctx)], inr tt).
Proof.
  intros Hid. unfold awaiting_merger_command.
  now rewrite (proj2 (same_user_false _ _) (fun H => Hid (eq_sym H))).
Qed.

(** C1.  When the author of the invoking comment is the author of the issue,
    [/status needs_merger] and [/status awaiting_merger] make exactly one
    call: the rejection text is posted to the comments endpoint of the issue;
    no status is set and no runner is notified.  When the two ids differ,
    the first call of each command sets the requested status on the issue;
    [awaiting_merger] does nothing else, and [needs_merger] only goes on to
    notify the runner. *)
Theorem self_review_guard (runners : gmap Z Runner) (ctx : CommandContext) :
  let issue := ctx_issue ctx in
  let rejection := Post (issue_comments_url issue) NO_SELF_REVIEW_TEXT (ctx_token ctx) in
  (user_id (comment_user (ctx_comment ctx)) = user_id (issue_user issue) ->
     needs_merger_command runners ctx = ([rejection], inr tt)
     /\ awaiting_merger_command ctx = ([rejection], inr tt))
  /\
  (user_id (comment_user (ctx_comment ctx)) <> user_id (issue_user issue) ->
     (exists rest r,
        needs_merger_command runners ctx =
          (SetIssueStatus issue "needs_merger" (ctx_token ctx) :: rest, r)
        /\ Forall (fun e => exists runner, e = RunSoon runner (ctx_token ctx)) rest)
     /\ awaiting_merger_command ctx =
          ([SetIssueStatus issue "awaiting_merger" (ctx_token ctx)], inr tt)).
Proof.
  cbv zeta. split; intros Hid.
  - split; [now apply needs_merger_by_author | now apply awaiting_merger_by_author].
  - split; [now apply needs_merger_by_other | now apply awaiting_merger_by_other].
Qed.

Lemma self_review_guard_witness :
  (needs_merger_command sample_runners (sample_ctx [] "/status needs_merger" sample_author)
     = ([Post "https://api.github.com/repos/o/r/issues/7/comments" NO_SELF_REVIEW_TEXT "token"],
        inr tt)
   /\ awaiting_merger_command (sample_ctx [] "/status needs_merger" sample_author)
     = ([Post "https://api.github.com/repos/o/r/issues/7/comments" NO_SELF_REVIEW_TEXT "token"],
        inr tt))
  /\ awaiting_merger_command (sample_ctx [] "/status awaiting_merger" sample_other)
     = ([SetIssueStatus (sample_issue []) "awaiting_merger" "token"], inr tt).
Proof.
  split.
  - apply (self_review_guard sample_runners (sample_ctx [] "/status needs_merger" sample_author)).
    reflexivity.
  - apply (self_review_guard sample_runners (sample_ctx [] "/status awaiting_merger" sample_other)).
    cbn. lia.
Defined.

(** ** Commands take precedence over inference *)

Lemma issue_comment_event_command find_commands event token comment :
  data_comment (data event) = Some comment ->
  find_commands (comment_body comment) <> [] ->
  issue_comment_event find_commands event token = ([], inr tt).
Proof.
  intros Hc Hf. unfold issue_comment_event. rewrite Hc. run_m.
  now rewrite (length_pos_true _ Hf).
Qed.

Lemma review_submitted_command find_commands event token review body :
  data_review (data event) = Some review ->
  review_body review = Some body ->
  find_commands body <> [] ->
  pull_request_review_submitted find_commands event token = ([], inr tt).
Proof.
  intros Hr Hb Hf. unfold pull_request_review_submitted. rewrite Hr. run_m.
  now rewrite Hb, (length_pos_true _ Hf).
Qed.

(** C2.  When the scanner finds a command in the body of a created comment
    (on an issue or on a review) or of a submitted review, the handler the
    router runs for the event returns at once: it makes no call at all, so
    no status is set by inference. *)
Theorem command_precedence (find_commands : string -> list string)
    (event : Event) (token : string) :
  (forall comment,
     comment_created event ->
     data_comment (data event) = Some comment ->
     find_commands (comment_body comment) <> [] ->
     dispatch find_commands event token = ([], inr tt))
  /\
  (forall review body,
     review_submitted event ->
     data_review (data event) = Some review ->
     review_body review = Some body ->
     find_commands body <> [] ->
     dispatch find_commands event token = ([], inr tt)).
Proof.
  split.
  - intros comment He Hc Hf. rewrite dispatch_comment_created by assumption.
    now apply issue_comment_event_command with comment.
  - intros review body He Hr Hb Hf. rewrite dispatch_review_submitted by assumption.
    now apply review_submitted_command with review body.
Qed.

Lemma command_precedence_witness :
  dispatch find_commands_model
    (sample_event "issue_comment" "created" None (Some (sample_issue ["needs_reviewer"]))
       (Some (sample_comment "LGTM /status needs_merger" sample_other)) None)
    "token" = ([], inr tt)
  /\
  dispatch find_commands_model
    (sample_event "pull_request_review" "submitted" (Some (sample_issue ["needs_reviewer"])) None
       None (Some (sample_review (Some "/status awaiting_changes") sample_other "changes_requested")))
    "token" = ([], inr tt).
Proof.
  split.
  - refine (proj1 (command_precedence find_commands_model
             (sample_event "issue_comment" "created" None (Some (sample_issue ["needs_reviewer"]))
                (Some (sample_comment "LGTM /status needs_merger" sample_other)) None)
             "token") (sample_comment "LGTM /status needs_merger" sample_other) _ _ _).
    + split; [left |]; reflexivity.
    + reflexivity.
    + vm_compute. discriminate.
  - refine (proj2 (command_precedence find_commands_model
             (sample_event "pull_request_review" "submitted"
                (Some (sample_issue ["needs_reviewer"])) None None
                (Some (sample_review (Some "/status awaiting_changes") sample_other
                         "changes_requested")))
             "token")
             (sample_review (Some "/status awaiting_changes") sample_other "changes_requested")
             "/status awaiting_changes" _ _ _ _).
    + split; reflexivity.
    + reflexivity.
    + reflexivity.
    + vm_compute. discriminate.
Defined.

(** ** The inference table *)

Lemma ready_for_review_outcome event token pr :
  data_pull_request (data event) = Some pr ->
  pull_request_ready_for_review event token =
    if bool_decide ("needs_merger" ∉ label_names pr)
       && bool_decide ("awaiting_reviewer" ∉ label_names pr)
       && bool_decide ("awaiting_merger" ∉ label_names pr)
    then ([SetIssueStatus pr "needs_reviewer" token], inr tt)
    else ([], inr tt).
Proof.
  intros Hp. unfold pull_request_ready_for_review. rewrite Hp. run_m.
  now destruct (_ && _).
Qed.

Lemma ready_for_review_guard (labels : gset string) :
  bool_decide ("needs_merger" ∉ labels)
  && bool_decide ("awaiting_reviewer" ∉ labels)
  && bool_decide ("awaiting_merger" ∉ labels) = true
  <-> ("needs_merger" ∉ labels) /\ ("awaiting_reviewer" ∉ labels) /\ ("awaiting_merger" ∉ labels).
Proof. rewrite !andb_true_iff, !bool_decide_eq_true. tauto. Qed.

Lemma sets_status_nil : ~ sets_status [].
Proof. intros (issue & status & token & []). Qed.

Lemma sets_status_cons issue status token t :
  sets_status (SetIssueStatus issue status token :: t).
Proof. exists issue, status, token. now left. Qed.

(** C3.  On a [pull_request] event with action [ready_for_review], the
    status [needs_reviewer] is set on the pull request when none of
    [needs_merger], [awaiting_reviewer], [awaiting_merger] is among its
    labels, and nothing is done when one of them is; so a status is set
    exactly when none of the three is present. *)
Theorem ready_for_review_transition (find_commands : string -> list string)
    (event : Event) (token : string) (pr : Issue) :
  event_type event = "pull_request" ->
  data_action (data event) = "ready_for_review" ->
  data_pull_request (data event) = Some pr ->
  let labels := label_names pr in
  let none_present :=
    ("needs_merger" ∉ labels) /\ ("awaiting_reviewer" ∉ labels)
    /\ ("awaiting_merger" ∉ labels) in
  (none_present ->
     dispatch find_commands event token = ([SetIssueStatus pr "needs_reviewer" token], inr tt))
  /\ (~ none_present -> dispatch find_commands event token = ([], inr tt))
  /\ (sets_status (trace (dispatch find_commands event token)) <-> none_present).
Proof.
  intros Ht Ha Hp labels none_present.
  rewrite (dispatch_ready_for_review _ _ _ Ht Ha), (ready_for_review_outcome _ _ _ Hp).
  fold labels. pose proof (ready_for_review_guard labels) as Hg. fold none_present in Hg.
  destruct (_ && _).
  - assert (Hn : none_present) by now apply Hg.
    split; [reflexivity | split; [tauto |]].
    split; [trivial | intros _; apply sets_status_cons].
  - assert (Hn : ~ none_present) by (intros H; apply Hg in H; discriminate).
    split; [tauto | split; [reflexivity |]].
    split; [intros H; now apply sets_status_nil in H | tauto].
Qed.

Lemma ready_for_review_transition_witness :
  dispatch find_commands_model
    (sample_event "pull_request" "ready_for_review" (Some (sample_issue [])) None None None)
    "token" = ([SetIssueStatus (sample_issue []) "needs_reviewer" "token"], inr tt).
Proof.
  apply (ready_for_review_transition find_commands_model
           (sample_event "pull_request" "ready_for_review" (Some (sample_issue [])) None None None)
           "token" (sample_issue []));
    try reflexivity.
  vm_compute. repeat split; set_solver.
Defined.

(** What [pull_request_review_submitted] does once the command check has let
    the review through. *)
Lemma review_submitted_inference find_commands event token review pr :
  data_review (data event) = Some review ->
  data_pull_request (data event) = Some pr ->
  no_command find_commands (review_body review) ->
  pull_request_review_submitted find_commands event token =
    if same_user (issue_user pr) (review_user review) then ([], inr tt)
    else if String.eqb (review_state review) "changes_requested"
    then ([SetIssueStatus pr "awaiting_changes" token], inr tt)
    else if bool_decide ("needs_reviewer" ∈ label_names pr)
    then ([SetIssueStatus pr "awaiting_reviewer" token], inr tt)
    else ([], inr tt).
Proof.
  intros Hr Hp Hn. unfold pull_request_review_submitted. rewrite Hr. run_m.
  assert (Hc : match review_body review with
               | Some body => (0 <? length (find_commands body))%nat
               | None => false
               end = false).
  { unfold no_command in Hn. destruct (review_body review); [| reflexivity].
    now apply length_pos_false. }
  rewrite Hc, Hp.
  destruct (same_user _ _); [reflexivity |].
  destruct (String.eqb _ _); [reflexivity |].
  now destruct (bool_decide _).
Qed.

(** C4.  A review submitted without a command by someone other than the
    author of the pull request: a review whose state is [changes_requested]
    sets [awaiting_changes], whatever the labels are (so also when
    [needs_reviewer] is present); any other review sets [awaiting_reviewer]
    when [needs_reviewer] is among the labels, and does nothing otherwise. *)
Theorem review_by_other_transition (find_commands : string -> list string)
    (event : Event) (token : string) (review : Review) (pr : Issue) :
  review_submitted event ->
  data_review (data event) = Some review ->
  data_pull_request (data event) = Some pr ->
  no_command find_commands (review_body review) ->
  user_id (review_user review) <> user_id (issue_user pr) ->
  (review_state review = "changes_requested" ->
     dispatch find_commands event token =
       ([SetIssueStatus pr "awaiting_changes" token], inr tt))
  /\ (review_state review <> "changes_requested" ->
      "needs_reviewer" ∈ label_names pr ->
      dispatch find_commands event token =
        ([SetIssueStatus pr "awaiting_reviewer" token], inr tt))
  /\ (review_state review <> "changes_requested" ->
      "needs_reviewer" ∉ label_names pr ->
      dispatch find_commands event token = ([], inr tt)).
Proof.
  intros He Hr Hp Hn Hid.
  rewrite (dispatch_review_submitted _ _ _ He),
    (review_submitted_inference _ _ _ _ _ Hr Hp Hn),
    (proj2 (same_user_false _ _) (fun H => Hid (eq_sym H))).
  split; [| split].
  - intros Hs. now rewrite (proj2 (String.eqb_eq _ _) Hs).
  - intros Hs Hl. rewrite (proj2 (String.eqb_neq _ _) Hs).
    now rewrite bool_decide_eq_true_2.
  - intros Hs Hl. rewrite (proj2 (String.eqb_neq _ _) Hs).
    now rewrite bool_decide_eq_false_2.
Qed.

Lemma review_by_other_transition_witness :
  dispatch find_commands_model
    (sample_event "pull_request_review" "submitted" (Some (sample_issue ["needs_reviewer"])) None
       None (Some (sample_review (Some "Please rename this.") sample_other "changes_requested")))
    "token"
  = ([SetIssueStatus (sample_issue ["needs_reviewer"]) "awaiting_changes" "token"], inr tt)
  /\
  dispatch find_commands_model
    (sample_event "pull_request_review" "submitted" (Some (sample_issue ["needs_reviewer"])) None
       None (Some (sample_review None sample_other "commented")))
    "token"
  = ([SetIssueStatus (sample_issue ["needs_reviewer"]) "awaiting_reviewer" "token"], inr tt).
Proof.
  split.
  - refine (proj1 (review_by_other_transition find_commands_model
             (sample_event "pull_request_review" "submitted"
                (Some (sample_issue ["needs_reviewer"])) None None
                (Some (sample_review (Some "Please rename this.") sample_other
                         "changes_requested")))
             "token"
             (sample_review (Some "Please rename this.") sample_other "changes_requested")
             (sample_issue ["needs_reviewer"]) _ _ _ _ _) _);
      try reflexivity.
    + split; reflexivity.
    + cbn. lia.
  - refine (proj1 (proj2 (review_by_other_transition find_commands_model
             (sample_event "pull_request_review" "submitted"
                (Some (sample_issue ["needs_reviewer"])) None None
                (Some (sample_review None sample_other "commented")))
             "token"
             (sample_review None sample_other "commented")
             (sample_issue ["needs_reviewer"]) _ _ _ _ _)) _ _);
      first [ reflexivity | split; reflexivity | exact I | cbn; lia
            | cbn; discriminate | vm_compute; set_solver ].
Defined.

(** C5.  A review submitted without a command by the author of the pull
    request makes no call, whatever its state and whatever the labels. *)
Theorem review_by_author_noop (find_commands : string -> list string)
    (event : Event) (token : string) (review : Review) (pr : Issue) :
  review_submitted event ->
  data_review (data event) = Some review ->
  data_pull_request (data event) = Some pr ->
  no_command find_commands (review_body review) ->
  user_id (review_user review) = user_id (issue_user pr) ->
  dispatch find_commands event token = ([], inr tt).
Proof.
  intros He Hr Hp Hn Hid.
  rewrite (dispatch_review_submitted _ _ _ He),
    (review_submitted_inference _ _ _ _ _ Hr Hp Hn).
  now rewrite (proj2 (same_user_true _ _) (eq_sym Hid)).
Qed.

Lemma review_by_author_noop_witness :
  dispatch find_commands_model
    (sample_event "pull_request_review" "submitted" (Some (sample_issue ["needs_reviewer"])) None
       None (Some (sample_review (Some "Note to self.") sample_author "changes_requested")))
    "token"
  = ([], inr tt).
Proof.
  apply (review_by_author_noop find_commands_model
           (sample_event "pull_request_review" "submitted"
              (Some (sample_issue ["needs_reviewer"])) None None
              (Some (sample_review (Some "Note to self.") sample_author "changes_requested")))
           "token"
           (sample_review (Some "Note to self.") sample_author "changes_requested")
           (sample_issue ["needs_reviewer"]));
    try reflexivity.
  split; reflexivity.
Defined.

(** C10.  A submitted review whose body is [None] is handled without the
    scanner: whatever the scanner is, the handler ends without an exception
    and does what it does for a review in which no command is found, by the
    identity of the reviewer, the state of the review and the labels. *)
Theorem review_null_body (find_commands : string -> list string)
    (event : Event) (token : string) (review : Review) (pr : Issue) :
  review_submitted event ->
  data_review (data event) = Some review ->
  data_pull_request (data event) = Some pr ->
  review_body review = None ->
  dispatch find_commands event token = dispatch (fun _ => []) event token
  /\ outcome (dispatch find_commands event token) = inr tt
  /\ trace (dispatch find_commands event token) =
       if Z.eqb (user_id (issue_user pr)) (user_id (review_user review)) then []
       else if String.eqb (review_state review) "changes_requested"
       then [SetIssueStatus pr "awaiting_changes" token]
       else if bool_decide ("needs_reviewer" ∈ label_names pr)
       then [SetIssueStatus pr "awaiting_reviewer" token]
       else [].
Proof.
  intros He Hr Hp Hb.
  assert (Hn : forall fc, no_command fc (review_body review)) by (intros fc; now rewrite Hb).
  rewrite !(dispatch_review_submitted _ _ _ He),
    !(review_submitted_inference _ _ _ _ _ Hr Hp (Hn _)).
  unfold same_user.
  split; [reflexivity |].
  destruct (Z.eqb _ _); [now split |].
  destruct (String.eqb _ _); [now split |].
  now destruct (bool_decide _).
Qed.

Lemma review_null_body_witness :
  outcome (dispatch find_commands_model
             (sample_event "pull_request_review" "submitted"
                (Some (sample_issue ["needs_reviewer"])) None None
                (Some (sample_review None sample_other "approved")))
             "token") = inr tt
  /\ trace (dispatch find_commands_model
              (sample_event "pull_request_review" "submitted"
                 (Some (sample_issue ["needs_reviewer"])) None None
                 (Some (sample_review None sample_other "approved")))
              "token")
     = [SetIssueStatus (sample_issue ["needs_reviewer"]) "awaiting_reviewer" "token"].
Proof.
  refine (proj2 (review_null_body find_commands_model
                   (sample_event "pull_request_review" "submitted"
                      (Some (sample_issue ["needs_reviewer"])) None None
                      (Some (sample_review None sample_other "approved")))
                   "token" (sample_review None sample_other "approved")
                   (sample_issue ["needs_reviewer"]) _ _ _ _));
    first [ reflexivity | split; reflexivity ].
Defined.

(** What [issue_comment_event] does when no command is found in the body. *)
Lemma issue_comment_inference find_commands event token comment issue :
  data_comment (data event) = Some comment ->
  event_issue event = Some issue ->
  find_commands (comment_body comment) = [] ->
  issue_comment_event find_commands event token =
    if same_user (issue_user issue) (comment_user comment)
       && bool_decide ("awaiting_changes" ∈ label_names issue)
    then ([SetIssueStatus issue "awaiting_reviewer" token], inr tt)
    else if negb (same_user (issue_user issue) (comment_user comment))
            && bool_decide ("needs_reviewer" ∈ label_names issue)
    then ([SetIssueStatus issue "awaiting_reviewer" token], inr tt)
    else ([], inr tt).
Proof.
  intros Hc Hi Hf. unfold issue_comment_event, event_issue in *. rewrite Hc. run_m.
  rewrite (length_pos_false _ Hf).
  destruct (data_issue (data event)) as [i |].
  - injection Hi as ->. destruct (_ && _); [reflexivity |]. now destruct (_ && _).
  - rewrite Hi. destruct (_ && _); [reflexivity |]. now destruct (_ && _).
Qed.

(** C6.  A comment created without a command: by the author of the issue
    while [awaiting_changes] is among the labels, it sets
    [awaiting_reviewer]; by someone else while [needs_reviewer] is among the
    labels, it sets [awaiting_reviewer]; in every other case it makes no
    call. *)
Theorem comment_transition (find_commands : string -> list string)
    (event : Event) (token : string) (comment : Comment) (issue : Issue) :
  comment_created event ->
  data_comment (data event) = Some comment ->
  event_issue event = Some issue ->
  find_commands (comment_body comment) = [] ->
  let by_author := user_id (comment_user comment) = user_id (issue_user issue) in
  let labels := label_names issue in
  (by_author -> "awaiting_changes" ∈ labels ->
     dispatch find_commands event token =
       ([SetIssueStatus issue "awaiting_reviewer" token], inr tt))
  /\ (~ by_author -> "needs_reviewer" ∈ labels ->
      dispatch find_commands event token =
        ([SetIssueStatus issue "awaiting_reviewer" token], inr tt))
  /\ (~ (by_author /\ "awaiting_changes" ∈ labels) ->
      ~ (~ by_author /\ "needs_reviewer" ∈ labels) ->
      dispatch find_commands event token = ([], inr tt)).
Proof.
  intros He Hc Hi Hf by_author labels.
  rewrite (dispatch_comment_created _ _ _ He),
    (issue_comment_inference _ _ _ _ _ Hc Hi Hf).
  fold labels. subst by_author.
  destruct (same_user (issue_user issue) (comment_user comment)) eqn:Hu;
    [apply same_user_true in Hu | apply same_user_false in Hu];
    cbn [andb negb]; (split; [| split]).
  - intros _ Hl. now rewrite bool_decide_eq_true_2.
  - intros Hn. now destruct Hn.
  - intros H1 _. rewrite bool_decide_eq_false_2; [reflexivity |].
    intros Hl. apply H1. now split.
  - intros Ha. now destruct Hu.
  - intros _ Hl. now rewrite bool_decide_eq_true_2.
  - intros _ H2. rewrite bool_decide_eq_false_2; [reflexivity |].
    intros Hl. apply H2. split; [| exact Hl]. intros Ha. now destruct Hu.
Qed.

Lemma comment_transition_witness :
  dispatch find_commands_model
    (sample_event "issue_comment" "created" None (Some (sample_issue ["awaiting_changes"]))
       (Some (sample_comment "I have pushed a fix." sample_author)) None)
    "token"
  = ([SetIssueStatus (sample_issue ["awaiting_changes"]) "awaiting_reviewer" "token"], inr tt)
  /\
  dispatch find_commands_model
    (sample_event "pull_request_review_comment" "created"
       (Some (sample_issue ["needs_reviewer"])) None
       (Some (sample_comment "Why not a loop here?" sample_other)) None)
    "token"
  = ([SetIssueStatus (sample_issue ["needs_reviewer"]) "awaiting_reviewer" "token"], inr tt)
  /\
  dispatch find_commands_model
    (sample_event "issue_comment" "created" None (Some (sample_issue ["needs_reviewer"]))
       (Some (sample_comment "Ping?" sample_author)) None)
    "token"
  = ([], inr tt).
Proof.
  split; [| split].
  - refine (proj1 (comment_transition find_commands_model
             (sample_event "issue_comment" "created" None
                (Some (sample_issue ["awaiting_changes"]))
                (Some (sample_comment "I have pushed a fix." sample_author)) None)
             "token" (sample_comment "I have pushed a fix." sample_author)
             (sample_issue ["awaiting_changes"]) _ _ _ _) _ _);
      first [ reflexivity | split; [left |]; reflexivity | vm_compute; set_solver ].
  - refine (proj1 (proj2 (comment_transition find_commands_model
             (sample_event "pull_request_review_comment" "created"
                (Some (sample_issue ["needs_reviewer"])) None
                (Some (sample_comment "Why not a loop here?" sample_other)) None)
             "token" (sample_comment "Why not a loop here?" sample_other)
             (sample_issue ["needs_reviewer"]) _ _ _ _)) _ _);
      first [ reflexivity | split; [right |]; reflexivity | cbn; lia
            | vm_compute; set_solver ].
  - refine (proj2 (proj2 (comment_transition find_commands_model
             (sample_event "issue_comment" "created" None
                (Some (sample_issue ["needs_reviewer"]))
                (Some (sample_comment "Ping?" sample_author)) None)
             "token" (sample_comment "Ping?" sample_author)
             (sample_issue ["needs_reviewer"]) _ _ _ _)) _ _);
      first [ reflexivity | split; [left |]; reflexivity
            | vm_compute; intros [_ H]; set_solver
            | vm_compute; intros [H _]; now apply H ].
Defined.

(** ** Notifying the triage runner *)

Lemma notifies_runner_nil : ~ notifies_runner [].
Proof. intros (runner & token & []). Qed.

(** The handlers of the router only ever set a status. *)
Lemma routed_handlers_only_set find_commands :
  Forall (fun h => forall event token,
            forallb is_set_status (trace (h event token)) = true)
         (snd <$> router find_commands).
Proof.
  unfold router. cbn [fmap list_fmap snd].
  repeat (apply List.Forall_cons); try apply List.Forall_nil; intros event token;
    unfold pull_request_ready_for_review, pull_request_synchronize, pull_request_assigned,
      issue_comment_event, pull_request_review_submitted;
    run_m; split_cases; reflexivity.
Qed.

Lemma run_all_only_set (hs : list (Event -> M unit)) (event : Event) :
  Forall (fun h => forallb is_set_status (trace (h event)) = true) hs ->
  forallb is_set_status (trace (run_all hs event)) = true.
Proof.
  induction 1 as [| h hs Hh _ IH]; [reflexivity |].
  cbn [run_all]. run_m.
  destruct (h event) as [t [e | []]]; cbn in *; [exact Hh |].
  destruct (run_all hs event) as [t' r]; cbn in *.
  rewrite forallb_app, Hh, IH. reflexivity.
Qed.

Lemma dispatch_only_sets find_commands event token :
  forallb is_set_status (trace (dispatch find_commands event token)) = true.
Proof.
  unfold dispatch. apply run_all_only_set.
  apply Forall_fmap, Forall_forall. intros h Hin. cbn.
  unfold fetch in Hin. apply list_elem_of_fmap in Hin as (r & -> & Hr).
  apply list_elem_of_In, filter_In in Hr as [Hr _].
  pose proof (routed_handlers_only_set find_commands) as Hall.
  rewrite Forall_fmap, Forall_forall in Hall.
  apply (Hall r). now apply list_elem_of_In.
Qed.

(** No transition inferred from an event notifies a runner. *)
Lemma inference_never_notifies find_commands event token :
  ~ notifies_runner (trace (dispatch find_commands event token)).
Proof.
  intros (runner & tok & Hin).
  pose proof (dispatch_only_sets find_commands event token) as Hall.
  rewrite forallb_forall in Hall. now apply Hall in Hin.
Qed.

(** The three commands that are not followed by a notification. *)
Lemma quiet_commands_do_not_notify ctx :
  ~ notifies_runner (trace (awaiting_changes_command ctx))
  /\ ~ notifies_runner (trace (awaiting_reviewer_command ctx))
  /\ ~ notifies_runner (trace (awaiting_merger_command ctx)).
Proof.
  repeat split; intros (runner & tok & Hin); revert Hin;
    unfold awaiting_changes_command, awaiting_reviewer_command, awaiting_merger_command;
    try destruct (same_user _ _); cbn; intros [Hin | []]; discriminate.
Qed.

(** [/status needs_reviewer] with a registered runner: the status is set,
    then two seconds pass, then the runner is notified. *)
Lemma needs_reviewer_command_settles runners ctx inst runner :
  data_installation (data (ctx_event ctx)) = Some inst ->
  runners !! installation_id inst = Some runner ->
  needs_reviewer_command runners ctx =
    ([SetIssueStatus (ctx_issue ctx) "needs_reviewer" (ctx_token ctx);
      Sleep 2;
      RunSoon runner (ctx_token ctx)], inr tt).
Proof.
  intros Hi Hr. unfold needs_reviewer_command, installation_runner.
  rewrite Hi. run_m. now rewrite Hr.
Qed.

(** [/status needs_merger] by someone other than the author, with a
    registered runner: the status is set and the runner is notified at
    once. *)
Lemma needs_merger_command_immediate runners ctx inst runner :
  user_id (comment_user (ctx_comment ctx)) <> user_id (issue_user (ctx_issue ctx)) ->
  data_installation (data (ctx_event ctx)) = Some inst ->
  runners !! installation_id inst = Some runner ->
  needs_merger_command runners ctx =
    ([SetIssueStatus (ctx_issue ctx) "needs_merger" (ctx_token ctx);
      RunSoon runner (ctx_token ctx)], inr tt).
Proof.
  intros Hid Hi Hr. unfold needs_merger_command, installation_runner.
  rewrite (proj2 (same_user_false _ _) (fun H => Hid (eq_sym H))), Hi. run_m.
  now rewrite Hr.
Qed.

(** C7.  [/status needs_merger] issued by someone other than the author: the
    runner of the installation is notified directly after the status is set,
    with no delay between the two calls, whereas [/status needs_reviewer] on
    the same context waits two seconds before it notifies. *)
Theorem needs_merger_notifies_without_delay :
  execute find_commands_model sample_runners
    (Command "/status needs_merger" (sample_ctx [] "/status needs_merger" sample_other))
  = ([SetIssueStatus (sample_issue []) "needs_merger" "token"; RunSoon 0%nat "token"], inr tt)
  /\ existsb is_sleep
       (trace (execute find_commands_model sample_runners
                 (Command "/status needs_merger"
                    (sample_ctx [] "/status needs_merger" sample_other)))) = false
  /\ execute find_commands_model sample_runners
       (Command "/status needs_reviewer" (sample_ctx [] "/status needs_merger" sample_other))
     = ([SetIssueStatus (sample_issue []) "needs_reviewer" "token"; Sleep 2;
         RunSoon 0%nat "token"], inr tt).
Proof. repeat split. Qed.

(** ** At most one status label *)

Lemma set_exclusive_status_label_one status labels :
  at_most_one_status (set_exclusive_status_label status labels).
Proof.
  unfold at_most_one_status, set_exclusive_status_label.
  intros a b Ha Hb Hsa Hsb.
  apply elem_of_union in Ha as [Ha | Ha];
    [apply elem_of_difference in Ha as [_ Ha]; contradiction |].
  apply elem_of_union in Hb as [Hb | Hb];
    [apply elem_of_difference in Hb as [_ Hb]; contradiction |].
  apply elem_of_singleton in Ha. apply elem_of_singleton in Hb. congruence.
Qed.

Lemma set_exclusive_status_label_idempotent status labels :
  set_exclusive_status_label status (set_exclusive_status_label status labels)
  = set_exclusive_status_label status labels.
Proof.
  unfold set_exclusive_status_label. apply set_eq. intros x.
  rewrite !elem_of_union, !elem_of_difference, !elem_of_union, !elem_of_difference,
    !elem_of_singleton.
  tauto.
Qed.

Lemma apply_effect_ok e store : store_ok store -> store_ok (apply_effect e store).
Proof.
  intros Hok. destruct e as [issue status token | | |]; cbn; try assumption.
  intros i labels. rewrite lookup_insert. case_decide.
  - intros [= <-]. apply set_exclusive_status_label_one.
  - apply Hok.
Qed.

Lemma trace_states_ok t :
  forall store, store_ok store ->
    Forall store_ok (trace_states t store) /\ store_ok (run_trace t store).
Proof.
  induction t as [| e t IH]; intros store Hok; cbn.
  - split; [constructor | assumption].
  - destruct (IH _ (apply_effect_ok e _ Hok)) as [Hs Hr].
    split; [constructor; [now apply apply_effect_ok | exact Hs] | exact Hr].
Qed.

Lemma history_from_ok find_commands runners invs :
  forall store, store_ok store ->
    Forall store_ok (history_from find_commands runners invs store).
Proof.
  induction invs as [| inv invs IH]; intros store Hok; cbn; [constructor |].
  destruct (trace_states_ok (trace (execute find_commands runners inv)) _ Hok) as [Hs Hr].
  apply Forall_app. split; [exact Hs | now apply IH].
Qed.

(** C8.  Starting from a tracker in which every issue carries at most one
    status label, and with every status set through the exclusive
    replacement, every issue carries at most one status label in every store
    the tracker goes through, after each call of each handler, for every
    sequence of deliveries and commands. *)
Theorem at_most_one_status_invariant (find_commands : string -> list string)
    (runners : gmap Z Runner) (invs : list Invocation) (store : gmap Z (gset string)) :
  store_ok store ->
  Forall store_ok (history find_commands runners invs store).
Proof.
  intros Hok. unfold history. constructor; [exact Hok |].
  now apply history_from_ok.
Qed.

Lemma at_most_one_status_invariant_witness :
  Forall store_ok
    (history find_commands_model sample_runners
       [ Delivery (sample_event "pull_request" "ready_for_review"
                     (Some (sample_issue ["bug"])) None None None) "token";
         Command "/status needs_merger" (sample_ctx ["bug"] "/status needs_merger" sample_other);
         Delivery (sample_event "pull_request" "synchronize"
                     (Some (sample_issue ["bug"; "needs_merger"])) None None None) "token" ]
       {[ 7%Z := {[ "bug" ]} ]}).
Proof.
  apply (at_most_one_status_invariant find_commands_model sample_runners).
  intros i labels Hl. apply lookup_singleton_Some in Hl as [_ <-].
  intros a b Ha Hb Hsa Hsb. set_solver.
Defined.

(** ** The rejection text *)

Lemma prefix_spec (needle hay : string) :
  String.prefix needle hay = true <-> exists rest, hay = needle +:+ rest.
Proof.
  revert hay. induction needle as [| c needle IH]; intros hay; cbn.
  - split; [intros _; now exists hay | intros _; now destruct hay].
  - destruct hay as [| c' hay]; cbn.
    + split; [discriminate | intros [rest Hr]; discriminate].
    + destruct (ascii_dec c c') as [-> | Hne].
      * rewrite IH. split; intros [rest Hr]; exists rest; [now rewrite Hr |].
        now injection Hr.
      * split; [discriminate | intros [rest Hr]]. injection Hr as Hc _. congruence.
Qed.

(** [contains] decides the occurrence of a substring. *)
Lemma contains_spec (needle hay : string) :
  contains needle hay = true <-> exists before rest, hay = before +:+ needle +:+ rest.
Proof.
  induction hay as [| c hay IH].
  - change (contains needle EmptyString) with (String.prefix needle EmptyString || false).
    rewrite orb_false_r, prefix_spec. split.
    + intros [rest Hr]. now exists EmptyString, rest.
    + intros (before & rest & Hr). destruct before; [now exists rest | discriminate].
  - change (contains needle (String c hay))
      with (String.prefix needle (String c hay) || contains needle hay).
    rewrite orb_true_iff, prefix_spec, IH. split.
    + intros [[rest Hr] | (before & rest & Hr)].
      * now exists EmptyString, rest.
      * exists (String c before), rest. cbn. now rewrite Hr.
    + intros (before & rest & Hr). destruct before as [| c' before]; cbn in Hr.
      * left. now exists rest.
      * right. injection Hr as _ Hr. now exists before, rest.
Qed.

Lemma no_self_review_text_content :
  contains "The PR author cannot set the status to `needs_merger`" NO_SELF_REVIEW_TEXT = true
  /\ contains "Please make an honest attempt to resolve all outstanding issues before setting to `needs_merger`"
       NO_SELF_REVIEW_TEXT = true
  /\ contains "awaiting_merger" NO_SELF_REVIEW_TEXT = false.
Proof. repeat split; vm_compute; reflexivity. Qed.

(** The text as posted has neither leading nor trailing white space, and
    stripping it again changes nothing. *)
Lemma no_self_review_text_stripped : strip NO_SELF_REVIEW_TEXT = NO_SELF_REVIEW_TEXT.
Proof. vm_compute. reflexivity. Qed.

(** Whatever either guarded command posts is the one fixed text. *)
Lemma posted_text_is_fixed (runners : gmap Z Runner) (ctx : CommandContext)
    (url body token : string) :
  In (Post url body token) (trace (needs_merger_command runners ctx))
  \/ In (Post url body token) (trace (awaiting_merger_command ctx)) ->
  body = NO_SELF_REVIEW_TEXT.
Proof.
  intros [Hin | Hin]; revert Hin.
  - unfold needs_merger_command, installation_runner.
    destruct (same_user _ _).
    + cbn. intros [[= _ <- _] | []]. reflexivity.
    + destruct (data_installation _) as [inst |]; run_m.
      * destruct (runners !! installation_id inst); run_m;
          cbn; intuition discriminate.
      * cbn; intuition discriminate.
  - unfold awaiting_merger_command. destruct (same_user _ _); cbn.
    + intros [[= _ <- _] | []]. reflexivity.
    + intuition discriminate.
Qed.

(** C9.  The author of a pull request who issues [/status awaiting_merger]
    is answered with the text written for [/status needs_merger]: the one
    call made posts [NO_SELF_REVIEW_TEXT], which tells the author that the
    status cannot be set to [needs_merger] and in which [awaiting_merger],
    the status that was refused, does not occur; so the text does not name
    both statuses.  The refusal of [/status needs_merger] posts the same
    text, which there does name the status refused. *)
Theorem awaiting_merger_rejection_names_needs_merger :
  awaiting_merger_command (sample_ctx [] "/status awaiting_merger" sample_author)
  = ([Post "https://api.github.com/repos/o/r/issues/7/comments" NO_SELF_REVIEW_TEXT "token"],
     inr tt)
  /\ needs_merger_command sample_runners (sample_ctx [] "/status needs_merger" sample_author)
     = ([Post "https://api.github.com/repos/o/r/issues/7/comments" NO_SELF_REVIEW_TEXT
           "token"], inr tt)
  /\ contains "The PR author cannot set the status to `needs_merger`" NO_SELF_REVIEW_TEXT
     = true
  /\ contains "Please make an honest attempt to resolve all outstanding issues before setting to `needs_merger`"
       NO_SELF_REVIEW_TEXT = true
  /\ contains "awaiting_merger" NO_SELF_REVIEW_TEXT = false
  /\ ~ names_both_statuses NO_SELF_REVIEW_TEXT.
Proof.
  split; [reflexivity | split; [reflexivity |]].
  destruct no_self_review_text_content as (Hcannot & Hresolve & Hmissing).
  repeat split; try assumption.
  intros [_ Hboth]. rewrite Hmissing in Hboth. discriminate.
Qed.

(** ** The router as a whole *)

(** The callbacks the router finds for an event: none, or exactly one
    handler, the one registered for the type and the action of the event. *)
Lemma fetch_elim find_commands event (P : list (Event -> string -> M unit) -> Prop) :
  P [] ->
  (event_type event = "pull_request" -> data_action (data event) = "ready_for_review" ->
   P [pull_request_ready_for_review]) ->
  (event_type event = "pull_request" -> data_action (data event) = "synchronize" ->
   P [pull_request_synchronize]) ->
  (event_type event = "pull_request" ->
   data_action (data event) = "assigned" \/ data_action (data event) = "review_requested" ->
   P [pull_request_assigned]) ->
  (comment_created event -> P [issue_comment_event find_commands]) ->
  (review_submitted event -> P [pull_request_review_submitted find_commands]) ->
  P (fetch find_commands event).
Proof.
  unfold fetch, router, comment_created, review_submitted.
  generalize (event_type event) as type, (data_action (data event)) as action.
  intros type action Hnil Hready Hsync Hassigned Hcomment Hreview.
  cbn [List.filter fst snd].
  repeat match goal with
         | |- context [String.eqb ?a ?b] =>
             first [ is_var b; destruct (String.eqb_spec a b); [subst |]
                   | let v := eval vm_compute in (String.eqb a b) in
                     change (String.eqb a b) with v ];
             cbn [andb List.filter fst snd fmap list_fmap]
         end;
  auto.
Qed.

Lemma fetch_cases find_commands event :
  fetch find_commands event = []
  \/ fetch find_commands event = [pull_request_ready_for_review]
  \/ fetch find_commands event = [pull_request_synchronize]
  \/ fetch find_commands event = [pull_request_assigned]
  \/ fetch find_commands event = [issue_comment_event find_commands]
  \/ fetch find_commands event = [pull_request_review_submitted find_commands].
Proof. apply fetch_elim; auto 10. Qed.

Lemma dispatch_nil find_commands event token :
  fetch find_commands event = [] ->
  dispatch find_commands event token = ([], inr tt).
Proof. intros Hf. unfold dispatch. now rewrite Hf. Qed.

Lemma dispatch_cases find_commands event token :
  dispatch find_commands event token = ([], inr tt)
  \/ dispatch find_commands event token = pull_request_ready_for_review event token
  \/ dispatch find_commands event token = pull_request_synchronize event token
  \/ dispatch find_commands event token = pull_request_assigned event token
  \/ dispatch find_commands event token = issue_comment_event find_commands event token
  \/ dispatch find_commands event token
     = pull_request_review_submitted find_commands event token.
Proof.
  destruct (fetch_cases find_commands event) as [H | [H | [H | [H | [H | H]]]]].
  - left. now apply dispatch_nil.
  - right; left. now apply dispatch_single.
  - right; right; left. now apply dispatch_single.
  - right; right; right; left. now apply dispatch_single.
  - right; right; right; right; left. now apply dispatch_single.
  - right; right; right; right; right. now apply dispatch_single.
Qed.

Lemma dispatch_synchronize find_commands event token :
  event_type event = "pull_request" ->
  data_action (data event) = "synchronize" ->
  dispatch find_commands event token = pull_request_synchronize event token.
Proof.
  intros Ht Ha. apply dispatch_single. unfold fetch. now rewrite Ht, Ha.
Qed.

Lemma dispatch_assigned find_commands event token :
  event_type event = "pull_request" ->
  data_action (data event) = "assigned" \/ data_action (data event) = "review_requested" ->
  dispatch find_commands event token = pull_request_assigned event token.
Proof.
  intros Ht [Ha | Ha]; apply dispatch_single; unfold fetch; now rewrite Ht, Ha.
Qed.

(** ** The remaining rows of the inference table *)

Lemma synchronize_guard (labels : gset string) :
  bool_decide ("needs_merger" ∈ labels)
  || bool_decide ("awaiting_changes" ∈ labels)
  || bool_decide ("awaiting_merger" ∈ labels) = true
  <-> ("needs_merger" ∈ labels) \/ ("awaiting_changes" ∈ labels)
      \/ ("awaiting_merger" ∈ labels).
Proof. rewrite !orb_true_iff, !bool_decide_eq_true. tauto. Qed.

(** X1.  On a [pull_request] event with action [synchronize], the status
    [awaiting_reviewer] is set on the pull request when one of
    [needs_merger], [awaiting_changes], [awaiting_merger] is among its
    labels; otherwise no call is made.  So a push leaves a pull request that
    is at [needs_reviewer], at [awaiting_reviewer] or without status
    alone. *)
Theorem synchronize_transition (find_commands : string -> list string)
    (event : Event) (token : string) (pr : Issue) :
  event_type event = "pull_request" ->
  data_action (data event) = "synchronize" ->
  data_pull_request (data event) = Some pr ->
  let labels := label_names pr in
  let any_present :=
    ("needs_merger" ∈ labels) \/ ("awaiting_changes" ∈ labels)
    \/ ("awaiting_merger" ∈ labels) in
  (any_present ->
     dispatch find_commands event token
     = ([SetIssueStatus pr "awaiting_reviewer" token], inr tt))
  /\ (~ any_present -> dispatch find_commands event token = ([], inr tt)).
Proof.
  intros Ht Ha Hp labels any_present.
  rewrite (dispatch_synchronize _ _ _ Ht Ha).
  unfold pull_request_synchronize. rewrite Hp. run_m. fold labels.
  pose proof (synchronize_guard labels) as Hg. fold any_present in Hg.
  destruct (_ || _).
  - split; [reflexivity | intros Hn; destruct Hn; now apply Hg].
  - split; [intros Hy; apply Hg in Hy; discriminate | reflexivity].
Qed.

Lemma synchronize_transition_witness :
  dispatch find_commands_model
    (sample_event "pull_request" "synchronize"
       (Some (sample_issue ["bug"; "awaiting_changes"])) None None None)
    "token"
  = ([SetIssueStatus (sample_issue ["bug"; "awaiting_changes"]) "awaiting_reviewer" "token"],
     inr tt)
  /\
  dispatch find_commands_model
    (sample_event "pull_request" "synchronize"
       (Some (sample_issue ["needs_reviewer"])) None None None)
    "token"
  = ([], inr tt).
Proof.
  split.
  - refine (proj1 (synchronize_transition find_commands_model
             (sample_event "pull_request" "synchronize"
                (Some (sample_issue ["bug"; "awaiting_changes"])) None None None)
             "token" (sample_issue ["bug"; "awaiting_changes"]) _ _ _) _);
      first [ reflexivity | vm_compute; set_solver ].
  - refine (proj2 (synchronize_transition find_commands_model
             (sample_event "pull_request" "synchronize"
                (Some (sample_issue ["needs_reviewer"])) None None None)
             "token" (sample_issue ["needs_reviewer"]) _ _ _) _);
      first [ reflexivity
            | intros H; apply synchronize_guard in H; vm_compute in H; discriminate ].
Defined.

(** X2.  On a [pull_request] event with action [assigned] or
    [review_requested], the status [awaiting_reviewer] is set when
    [needs_reviewer] is among the labels of the pull request; otherwise no
    call is made. *)
Theorem assigned_transition (find_commands : string -> list string)
    (event : Event) (token : string) (pr : Issue) :
  event_type event = "pull_request" ->
  data_action (data event) = "assigned" \/ data_action (data event) = "review_requested" ->
  data_pull_request (data event) = Some pr ->
  ("needs_reviewer" ∈ label_names pr ->
     dispatch find_commands event token
     = ([SetIssueStatus pr "awaiting_reviewer" token], inr tt))
  /\ ("needs_reviewer" ∉ label_names pr ->
      dispatch find_commands event token = ([], inr tt)).
Proof.
  intros Ht Ha Hp.
  rewrite (dispatch_assigned _ _ _ Ht Ha).
  unfold pull_request_assigned. rewrite Hp. run_m.
  split; intros Hl.
  - now rewrite bool_decide_eq_true_2.
  - now rewrite bool_decide_eq_false_2.
Qed.

Lemma assigned_transition_witness :
  dispatch find_commands_model
    (sample_event "pull_request" "review_requested"
       (Some (sample_issue ["needs_reviewer"])) None None None)
    "token"
  = ([SetIssueStatus (sample_issue ["needs_reviewer"]) "awaiting_reviewer" "token"], inr tt)
  /\
  dispatch find_commands_model
    (sample_event "pull_request" "assigned"
       (Some (sample_issue ["awaiting_changes"])) None None None)
    "token"
  = ([], inr tt).
Proof.
  split.
  - refine (proj1 (assigned_transition find_commands_model
             (sample_event "pull_request" "review_requested"
                (Some (sample_issue ["needs_reviewer"])) None None None)
             "token" (sample_issue ["needs_reviewer"]) _ _ _) _);
      first [ reflexivity | right; reflexivity | vm_compute; set_solver ].
  - refine (proj2 (assigned_transition find_commands_model
             (sample_event "pull_request" "assigned"
                (Some (sample_issue ["awaiting_changes"])) None None None)
             "token" (sample_issue ["awaiting_changes"]) _ _ _) _);
      first [ reflexivity | left; reflexivity | vm_compute; set_solver ].
Defined.

(** ** Events the router has no handler for *)

Lemma route_mismatch (t a type action : string) (routes : list (string * string)) :
  ~ In (type, action) routes ->
  In (t, a) routes ->
  String.eqb t type && String.eqb a action = false.
Proof.
  intros Hn Hin.
  destruct (String.eqb_spec t type) as [<- |]; [| reflexivity].
  destruct (String.eqb_spec a action) as [<- |]; [| reflexivity].
  contradiction.
Qed.

(** X3.  The router has exactly one handler for each of the seven registered
    pairs of event type and action, and none for any other pair: a delivery
    of any other event (a pull request being opened or closed, say) makes no
    call and raises nothing. *)
Theorem unrouted_event_ignored (find_commands : string -> list string)
    (event : Event) (token : string) :
  let routes :=
    [ ("pull_request", "ready_for_review"); ("pull_request", "synchronize");
      ("pull_request", "review_requested"); ("pull_request", "assigned");
      ("issue_comment", "created"); ("pull_request_review_comment", "created");
      ("pull_request_review", "submitted") ] in
  (~ In (event_type event, data_action (data event)) routes ->
     dispatch find_commands event token = ([], inr tt))
  /\ (In (event_type event, data_action (data event)) routes ->
      length (fetch find_commands event) = 1%nat).
Proof.
  intros routes. split.
  - intros Hn. apply dispatch_nil. unfold fetch, router.
    cbn [List.filter fst snd].
    repeat (rewrite (route_mismatch _ _ _ _ routes Hn) by (cbn; auto 10)).
    reflexivity.
  - intros Hin. unfold fetch. cbn in Hin.
    repeat (destruct Hin as [Hin | Hin];
            [injection Hin as <- <-; reflexivity |]).
    destruct Hin.
Qed.

Lemma unrouted_event_ignored_witness :
  dispatch find_commands_model
    (sample_event "pull_request" "opened" (Some (sample_issue [])) None None None) "token"
  = ([], inr tt)
  /\ length (fetch find_commands_model
               (sample_event "pull_request" "assigned" (Some (sample_issue [])) None None None))
     = 1%nat.
Proof.
  split.
  - apply (unrouted_event_ignored find_commands_model
             (sample_event "pull_request" "opened" (Some (sample_issue [])) None None None)
             "token").
    cbn. intuition discriminate.
  - apply (unrouted_event_ignored find_commands_model
             (sample_event "pull_request" "assigned" (Some (sample_issue [])) None None None)
             "token").
    cbn. auto 10.
Defined.

(** ** What a delivery can do *)

(** X4.  For a payload whose nested objects are complete (each issue or pull
    request with its labels and its author, each comment with its body and
    its author, each review with its body, its state and its author), and
    whatever the event type, the action and the top-level keys present, a
    delivery ends in one of three ways: it makes no call; or it raises a
    [KeyError] for the top-level key [pull_request], [comment] or [review]
    without having made any call; or it makes exactly one call, which sets
    [needs_reviewer], [awaiting_reviewer] or [awaiting_changes] on the issue
    or the pull request of the payload.  On such payloads inference never
    sets [needs_merger] or [awaiting_merger], never posts and never
    notifies. *)
Theorem delivery_shape (find_commands : string -> list string)
    (event : Event) (token : string) :
  dispatch find_commands event token = ([], inr tt)
  \/ (exists key,
        In key ["pull_request"; "comment"; "review"]
        /\ dispatch find_commands event token = ([], inl (KeyError key)))
  \/ (exists issue status,
        (data_pull_request (data event) = Some issue \/ data_issue (data event) = Some issue)
        /\ In status ["needs_reviewer"; "awaiting_reviewer"; "awaiting_changes"]
        /\ dispatch find_commands event token
           = ([SetIssueStatus issue status token], inr tt)).
Proof.
  destruct (dispatch_cases find_commands event token)
    as [H | [H | [H | [H | [H | H]]]]]; rewrite H; clear H;
    [now left | | | | |];
    unfold pull_request_ready_for_review, pull_request_synchronize, pull_request_assigned,
      issue_comment_event, pull_request_review_submitted;
    run_m; split_cases_eqn;
    first [ left; reflexivity
          | right; left; eexists; split; [| reflexivity]; cbn; tauto
          | right; right; eexists _, _; split; [| split; [| reflexivity]];
            [eauto | cbn; tauto] ].
Qed.

(** ** Payloads with missing keys *)

(** X5.  A handler that does not find the key it reads raises [KeyError] for
    that key before any call is made: [pull_request] for the four pull
    request actions; [comment] for a created comment without comment; [review]
    for a submitted review without review; and, once no command is found,
    [pull_request] for a comment with neither issue nor pull request and for
    a review without pull request. *)
Theorem missing_key_raises (find_commands : string -> list string)
    (event : Event) (token : string) :
  (event_type event = "pull_request" ->
   In (data_action (data event))
      ["ready_for_review"; "synchronize"; "assigned"; "review_requested"] ->
   data_pull_request (data event) = None ->
   dispatch find_commands event token = ([], inl (KeyError "pull_request")))
  /\ (comment_created event ->
      data_comment (data event) = None ->
      dispatch find_commands event token = ([], inl (KeyError "comment")))
  /\ (forall comment,
        comment_created event ->
        data_comment (data event) = Some comment ->
        find_commands (comment_body comment) = [] ->
        event_issue event = None ->
        dispatch find_commands event token = ([], inl (KeyError "pull_request")))
  /\ (review_submitted event ->
      data_review (data event) = None ->
      dispatch find_commands event token = ([], inl (KeyError "review")))
  /\ (forall review,
        review_submitted event ->
        data_review (data event) = Some review ->
        no_command find_commands (review_body review) ->
        data_pull_request (data event) = None ->
        dispatch find_commands event token = ([], inl (KeyError "pull_request"))).
Proof.
  repeat split.
  - intros Ht Ha Hp. cbn in Ha.
    destruct Ha as [Ha | [Ha | [Ha | [Ha | []]]]]; symmetry in Ha.
    + rewrite (dispatch_ready_for_review _ _ _ Ht Ha).
      unfold pull_request_ready_for_review. now rewrite Hp.
    + rewrite (dispatch_synchronize _ _ _ Ht Ha).
      unfold pull_request_synchronize. now rewrite Hp.
    + rewrite (dispatch_assigned _ _ _ Ht (or_introl Ha)).
      unfold pull_request_assigned. now rewrite Hp.
    + rewrite (dispatch_assigned _ _ _ Ht (or_intror Ha)).
      unfold pull_request_assigned. now rewrite Hp.
  - intros He Hc. rewrite (dispatch_comment_created _ _ _ He).
    unfold issue_comment_event. now rewrite Hc.
  - intros comment He Hc Hf Hi. rewrite (dispatch_comment_created _ _ _ He).
    unfold issue_comment_event, event_issue in *. rewrite Hc. run_m.
    rewrite (length_pos_false _ Hf).
    destruct (data_issue (data event)); [discriminate |]. now rewrite Hi.
  - intros He Hr. rewrite (dispatch_review_submitted _ _ _ He).
    unfold pull_request_review_submitted. now rewrite Hr.
  - intros review He Hr Hn Hp. rewrite (dispatch_review_submitted _ _ _ He).
    unfold pull_request_review_submitted, no_command in *. rewrite Hr. run_m.
    destruct (review_body review) as [body |];
      [rewrite (length_pos_false _ Hn) |]; now rewrite Hp.
Qed.

Lemma missing_key_raises_witness :
  dispatch find_commands_model
    (sample_event "pull_request" "synchronize" None None None None) "token"
  = ([], inl (KeyError "pull_request"))
  /\
  dispatch find_commands_model
    (sample_event "issue_comment" "created" None None
       (Some (sample_comment "Looks fine." sample_other)) None) "token"
  = ([], inl (KeyError "pull_request"))
  /\
  dispatch find_commands_model
    (sample_event "pull_request_review" "submitted" (Some (sample_issue [])) None None None)
    "token"
  = ([], inl (KeyError "review")).
Proof.
  split; [| split].
  - refine (proj1 (missing_key_raises find_commands_model
             (sample_event "pull_request" "synchronize" None None None None) "token")
             _ _ _);
      first [ reflexivity | cbn; tauto ].
  - refine (proj1 (proj2 (proj2 (missing_key_raises find_commands_model
             (sample_event "issue_comment" "created" None None
                (Some (sample_comment "Looks fine." sample_other)) None) "token")))
             (sample_comment "Looks fine." sample_other) _ _ _ _);
      first [ reflexivity | split; [left |]; reflexivity ].
  - refine (proj1 (proj2 (proj2 (proj2 (missing_key_raises find_commands_model
             (sample_event "pull_request_review" "submitted"
                (Some (sample_issue [])) None None None) "token"))))
             _ _);
      first [ reflexivity | split; reflexivity ].
Defined.

(** ** A pull request that awaits its reviewer *)





(** ** The commands *)

(** X7.  Every registered command sets no status but the one its trigger
    names, on no issue but the one it was called for, and with the token it
    was given: a call [set_issue_status(i, s, gh, t)] made by the handler of
    a trigger means that the trigger is [/status s], that [i] is the issue
    of the context and [t] its token. *)
Theorem command_sets_named_status (runners : gmap Z Runner)
    (trigger : string) (handler : CommandContext -> M unit) (ctx : CommandContext)
    (issue : Issue) (status token : string) :
  In (trigger, handler) (command_router runners) ->
  In (SetIssueStatus issue status token) (trace (handler ctx)) ->
  trigger = "/status " +:+ status /\ issue = ctx_issue ctx /\ token = ctx_token ctx.
Proof.
  intros Hreg. cbn in Hreg.
  repeat (destruct Hreg as [Hreg | Hreg];
          [injection Hreg as <- <-;
           unfold needs_reviewer_command, awaiting_changes_command,
             awaiting_reviewer_command, needs_merger_command, awaiting_merger_command,
             installation_runner;
           run_m; split_cases; cbn;
           intros Hin;
           repeat (destruct Hin as [Hin | Hin];
                   [first [ discriminate Hin
                          | injection Hin as <- <- <-; repeat split ] |]);
           destruct Hin |]).
  destruct Hreg.
Qed.

Lemma command_sets_named_status_witness :
  "/status awaiting_changes" = "/status " +:+ "awaiting_changes"
  /\ sample_issue ["needs_reviewer"] = ctx_issue (sample_ctx ["needs_reviewer"] "" sample_author)
  /\ "token" = ctx_token (sample_ctx ["needs_reviewer"] "" sample_author).
Proof.
  apply (command_sets_named_status sample_runners "/status awaiting_changes"
           awaiting_changes_command (sample_ctx ["needs_reviewer"] "" sample_author)
           (sample_issue ["needs_reviewer"]) "awaiting_changes" "token").
  - cbn. auto.
  - left. reflexivity.
Defined.

(** X8.  A command notifies a runner only as its last call, after it has set
    the status its trigger names on the issue of the context: the trigger is
    then [/status needs_reviewer], or [/status needs_merger] issued by
    someone other than the author; the runner is the one registered for the
    installation of the event; and the command ends without exception. *)
Theorem runner_notified_after_status (runners : gmap Z Runner)
    (trigger : string) (handler : CommandContext -> M unit) (ctx : CommandContext)
    (runner : Runner) (token : string) :
  In (trigger, handler) (command_router runners) ->
  In (RunSoon runner token) (trace (handler ctx)) ->
  (trigger = "/status needs_reviewer"
   \/ (trigger = "/status needs_merger"
       /\ user_id (comment_user (ctx_comment ctx)) <> user_id (issue_user (ctx_issue ctx))))
  /\ (exists inst,
        data_installation (data (ctx_event ctx)) = Some inst
        /\ runners !! installation_id inst = Some runner)
  /\ token = ctx_token ctx
  /\ outcome (handler ctx) = inr tt
  /\ (exists status between,
        trigger = "/status " +:+ status
        /\ trace (handler ctx)
           = (SetIssueStatus (ctx_issue ctx) status (ctx_token ctx) :: between
              ++ [RunSoon runner token])%list).
Proof.
  intros Hreg. cbn in Hreg.
  destruct Hreg as [Hreg | [Hreg | [Hreg | [Hreg | [Hreg | []]]]]];
    injection Hreg as <- <-.
  - unfold needs_reviewer_command, installation_runner. run_m.
    destruct (data_installation (data (ctx_event ctx))) as [inst |] eqn:Hi; cbn;
      [destruct (runners !! installation_id inst) as [r |] eqn:Hr; cbn |];
      intros Hin; repeat (destruct Hin as [Hin | Hin]; [try discriminate Hin |]);
      try contradiction.
    injection Hin as <- <-.
    split; [now left |]. split; [now exists inst |]. repeat split.
    exists "needs_reviewer", [Sleep 2]. now split.
  - cbn. intros [Hin | []]. discriminate.
  - cbn. intros [Hin | []]. discriminate.
  - unfold needs_merger_command, installation_runner.
    destruct (same_user _ _) eqn:Hu; [cbn; intros [Hin | []]; discriminate |].
    apply same_user_false in Hu. run_m.
    destruct (data_installation (data (ctx_event ctx))) as [inst |] eqn:Hi; cbn;
      [destruct (runners !! installation_id inst) as [r |] eqn:Hr; cbn |];
      intros Hin; repeat (destruct Hin as [Hin | Hin]; [try discriminate Hin |]);
      try contradiction.
    injection Hin as <- <-.
    split; [right; split; [reflexivity | congruence] |].
    split; [now exists inst |]. repeat split.
    exists "needs_merger", []. now split.
  - unfold awaiting_merger_command.
    destruct (same_user _ _); cbn; intros [Hin | []]; discriminate.
Qed.

Lemma runner_notified_after_status_witness :
  exists status between,
    "/status needs_reviewer" = "/status " +:+ status
    /\ trace (needs_reviewer_command sample_runners (sample_ctx [] "" sample_author))
       = (SetIssueStatus (sample_issue []) status "token" :: between
          ++ [RunSoon 0%nat "token"])%list.
Proof.
  refine (proj2 (proj2 (proj2 (proj2
            (runner_notified_after_status sample_runners "/status needs_reviewer"
               (needs_reviewer_command sample_runners) (sample_ctx [] "" sample_author)
               0%nat "token" _ _))))).
  - cbn. auto.
  - vm_compute. auto.
Defined.

(** X9.  When the runner cannot be found, because the payload has no
    installation or because no runner is registered for it, the command has
    already set the status: [/status needs_reviewer] sets it, waits, and
    then raises; [/status needs_merger] from someone other than the author
    sets it and then raises.  No runner is notified and the status stays
    set. *)
Theorem runner_lookup_failure (runners : gmap Z Runner) (ctx : CommandContext) (e : Exn) :
  (data_installation (data (ctx_event ctx)) = None /\ e = KeyError "installation")
  \/ (exists inst,
        data_installation (data (ctx_event ctx)) = Some inst
        /\ runners !! installation_id inst = None
        /\ e = KeyErrorId (installation_id inst)) ->
  needs_reviewer_command runners ctx
  = ([SetIssueStatus (ctx_issue ctx) "needs_reviewer" (ctx_token ctx); Sleep 2], inl e)
  /\ (user_id (comment_user (ctx_comment ctx)) <> user_id (issue_user (ctx_issue ctx)) ->
      needs_merger_command runners ctx
      = ([SetIssueStatus (ctx_issue ctx) "needs_merger" (ctx_token ctx)], inl e)).
Proof.
  intros Hfail.
  assert (Hrun : installation_runner runners (ctx_event ctx) = ([], inl e)).
  { unfold installation_runner.
    destruct Hfail as [[Hi ->] | (inst & Hi & Hr & ->)]; rewrite Hi; run_m;
      [reflexivity | now rewrite Hr]. }
  split.
  - unfold needs_reviewer_command. rewrite Hrun. reflexivity.
  - intros Hid. unfold needs_merger_command.
    rewrite (proj2 (same_user_false _ _) (fun H => Hid (eq_sym H))), Hrun. reflexivity.
Qed.

Lemma runner_lookup_failure_witness :
  needs_reviewer_command ∅ (sample_ctx [] "" sample_other)
  = ([SetIssueStatus (sample_issue []) "needs_reviewer" "token"; Sleep 2],
     inl (KeyErrorId 5))
  /\ needs_merger_command ∅ (sample_ctx [] "" sample_other)
     = ([SetIssueStatus (sample_issue []) "needs_merger" "token"], inl (KeyErrorId 5)).
Proof.
  destruct (runner_lookup_failure ∅ (sample_ctx [] "" sample_other) (KeyErrorId 5))
    as [Hr Hm].
  - right. exists {| installation_id := 5 |}. repeat split.
  - split; [exact Hr | apply Hm; cbn; lia].
Defined.
